(** * The dispenser-counter control loop of [source/main.cpp]

    A shallow embedding of the interrupt handlers, the boot sequence and the
    body of the [while (true)] loop of [main], followed by the properties of
    the specification that concern them.

    Conventions.
    - [uint32_t] values are integers in [Z]; the places where the C++ code
      computes modulo 2^32 are written with [wrap32].
    - [std::vector<uint8_t>] is a [list Z] of values below 256.
    - The globals of the translation unit and the two objects reached through
      the pointers [config] and [dot] form the record [State].
    - Everything the loop asks of the outside world (pin levels, the clock,
      the outcome of a join) is an explicit input of one iteration, one field
      per read the code performs.
    - Calls that act on the outside world are recorded in a trace of
      [Action]s, in program order. *)

From Stdlib Require Import ZArith List Bool Lia.
Import ListNotations.
Open Scope Z_scope.

(** ** Machine arithmetic *)

Definition wrap32 (z : Z) : Z := z mod 2 ^ 32.

(** ** ApplicationConfig *)

(** The persisted application settings behind the pointer [config].  The
    three fields are what the getters [get_dispenses_left],
    [get_tx_interval_s] and [get_battery_status] return. *)
Record ApplicationConfig : Type := mkApplicationConfig {
  get_dispenses_left : Z;
  get_tx_interval_s : Z;
  get_battery_status : bool
}.

(** Modelled from the spec: the value [reset_dispenses_left] restores.
    ApplicationConfig.h is not part of the sources at hand; the specification
    calls it the configured full value, and both its scenario and the log
    line of main.cpp:153 give 1000. *)
Definition DISPENSES_FULL : Z := 1000.

(** Modelled from the spec: [ApplicationConfig::decrease_dispenses_left] is
    declared in ApplicationConfig.h, which is missing.  The specification
    describes it as a decrement clamped at 0. *)
Definition decrease_dispenses_left (c : ApplicationConfig) : ApplicationConfig :=
  mkApplicationConfig
    (if 0 <? get_dispenses_left c then get_dispenses_left c - 1 else 0)
    (get_tx_interval_s c) (get_battery_status c).

(** Modelled from the spec: [ApplicationConfig::reset_dispenses_left] (missing
    header) puts the counter back to the configured full value. *)
Definition reset_dispenses_left (c : ApplicationConfig) : ApplicationConfig :=
  mkApplicationConfig DISPENSES_FULL (get_tx_interval_s c) (get_battery_status c).

(** Modelled from the spec: [ApplicationConfig::alert_low_battery] (missing
    header) records the low-battery state. *)
Definition alert_low_battery (c : ApplicationConfig) : ApplicationConfig :=
  mkApplicationConfig (get_dispenses_left c) (get_tx_interval_s c) true.

(** Modelled from the spec: [ApplicationConfig::alert_stable_battery] (missing
    header) clears the recorded low-battery state. *)
Definition alert_stable_battery (c : ApplicationConfig) : ApplicationConfig :=
  mkApplicationConfig (get_dispenses_left c) (get_tx_interval_s c) false.

(** Modelled from the spec: [ApplicationConfig::set_tx_interval_s] (missing
    header) stores the reporting period. *)
Definition set_tx_interval_s (v : Z) (c : ApplicationConfig) : ApplicationConfig :=
  mkApplicationConfig (get_dispenses_left c) v (get_battery_status c).

(** ** The radio object

    Of the mDot library object only the settings that the control decisions
    read are kept: the standby flag, the join status, the duty-cycle switch
    and the join status of the session held in non-volatile memory.  Join
    mode, keys, ADR, data rate, log level and wake pin are written once by
    the provisioning sequence and never read back by [main]. *)
Record mDot : Type := mkDot {
  getStandbyFlag : bool;
  getNetworkJoinStatus : bool;
  getDisableDutyCycle : bool;
  nvm_session : bool
}.

Definition setDisableDutyCycle (v : bool) (d : mDot) : mDot :=
  mkDot (getStandbyFlag d) (getNetworkJoinStatus d) v (nvm_session d).

Definition setNetworkJoinStatus (v : bool) (d : mDot) : mDot :=
  mkDot (getStandbyFlag d) v (getDisableDutyCycle d) (nvm_session d).

Definition resetNetworkSession (d : mDot) : mDot := setNetworkJoinStatus false d.

Definition restoreNetworkSession (d : mDot) : mDot :=
  setNetworkJoinStatus (nvm_session d) d.

Definition saveNetworkSession (d : mDot) : mDot :=
  mkDot (getStandbyFlag d) (getNetworkJoinStatus d) (getDisableDutyCycle d)
        (getNetworkJoinStatus d).

(** The duty-cycle restriction is in force exactly when the library's
    disable switch is off. *)
Definition duty_cycle_enforced (d : mDot) : bool := negb (getDisableDutyCycle d).

(** ** Program state *)

Record State : Type := mkState {
  config : ApplicationConfig;
  dot : mDot;
  counter_interrupt : bool;
  reset_interrupt : bool;
  low_battery_interrupt : bool;
  sleep_until : Z
}.

Definition with_config (f : ApplicationConfig -> ApplicationConfig) (s : State) : State :=
  mkState (f (config s)) (dot s) (counter_interrupt s) (reset_interrupt s)
          (low_battery_interrupt s) (sleep_until s).

Definition with_dot (f : mDot -> mDot) (s : State) : State :=
  mkState (config s) (f (dot s)) (counter_interrupt s) (reset_interrupt s)
          (low_battery_interrupt s) (sleep_until s).

Definition set_counter_interrupt (v : bool) (s : State) : State :=
  mkState (config s) (dot s) v (reset_interrupt s) (low_battery_interrupt s)
          (sleep_until s).

Definition set_reset_interrupt (v : bool) (s : State) : State :=
  mkState (config s) (dot s) (counter_interrupt s) v (low_battery_interrupt s)
          (sleep_until s).

Definition set_low_battery_interrupt (v : bool) (s : State) : State :=
  mkState (config s) (dot s) (counter_interrupt s) (reset_interrupt s) v
          (sleep_until s).

Definition set_sleep_until (v : Z) (s : State) : State :=
  mkState (config s) (dot s) (counter_interrupt s) (reset_interrupt s)
          (low_battery_interrupt s) v.

(** [static bool deep_sleep = false;] *)
Definition deep_sleep : bool := false.

(** ** Interrupt handlers (main.cpp:27-40) *)

Definition counter_dec (s : State) : State :=
  with_config decrease_dispenses_left (set_counter_interrupt true s).

Definition counter_reset (s : State) : State :=
  with_config reset_dispenses_left (set_reset_interrupt true s).

Definition low_battery (s : State) : State :=
  with_config alert_low_battery (set_low_battery_interrupt true s).

(** The three edges the handlers are registered for (main.cpp:45-52):
    rising on the dispense pin, falling on the other two. *)
Inductive Edge : Type :=
| DispenseRise
| LowBatFall
| ResetFall.

Definition handle (e : Edge) : State -> State :=
  match e with
  | DispenseRise => counter_dec
  | LowBatFall => low_battery
  | ResetFall => counter_reset
  end.

(** The handlers of a sequence of edges, run in arrival order. *)
Definition handle_all (es : list Edge) (s : State) : State :=
  fold_left (fun acc e => handle e acc) es s.

(** ** Boot (main.cpp:22-25 and 68-128) *)

(** The program starts with its globals at their static initialisers; the
    application settings and the radio object are what persistent storage
    and the library hand over. *)
Definition power_on (cfg : ApplicationConfig) (d : mDot) : State :=
  mkState cfg d false false false 0.

(** The cold-start branch, lines 69-124.  Of its calls, the interval
    ceiling, [resetNetworkSession] and [setDisableDutyCycle(true)] touch the
    modelled state; the others write radio settings that [main] never reads
    back, or only log. *)
Definition provision (s : State) : State :=
  let s1 :=
    if 60 <? get_tx_interval_s (config s)
    then with_config (set_tx_interval_s 60) s
    else s in
  let s2 := with_dot resetNetworkSession s1 in
  with_dot (setDisableDutyCycle true) s2.

Definition boot (s : State) : State :=
  if negb (getStandbyFlag (dot s))
  then provision s
  else with_dot restoreNetworkSession s.

(** ** Outside world *)

(** What one pass through the loop body reads from the outside.  The battery
    pin is sampled by two separate [lowBat.read()] calls (lines 171 and 177);
    the clock is read once on either path (line 143 or line 198). *)
Record Reads : Type := mkReads {
  dispense_read : bool;
  time_null : Z;
  join_result : bool;
  lowBat_read_1 : bool;
  lowBat_read_2 : bool;
  elapsed_since_wake : Z
}.

Inductive Action : Type :=
| JoinNetwork (ok : bool)
| SendData (tx_data : list Z)
| SleepWakeRtcOrInterrupt (delay_s : Z) (deepsleep : bool).

Inductive Path : Type :=
| FastPath
| TransmitPath.

(** ** A state-and-trace monad for the loop body *)

Definition Loop (A : Type) : Type := State -> A * State * list Action.

Definition ret {A : Type} (a : A) : Loop A := fun s => (a, s, []).

Definition bind {A B : Type} (m : Loop A) (k : A -> Loop B) : Loop B :=
  fun s =>
    let '(a, s1, t1) := m s in
    let '(b, s2, t2) := k a s1 in
    (b, s2, t1 ++ t2).

Definition gets {A : Type} (f : State -> A) : Loop A := fun s => (f s, s, []).

Definition modify (f : State -> State) : Loop unit := fun s => (tt, f s, []).

Definition emit (a : Action) : Loop unit := fun s => (tt, s, [a]).

Definition when (b : bool) (m : Loop unit) : Loop unit := if b then m else ret tt.

Declare Scope loop_scope.
Delimit Scope loop_scope with loop.
Notation "x <- m ;; k" := (bind m (fun x => k))
  (at level 61, m at next level, right associativity) : loop_scope.
Notation "m ;; k" := (bind m (fun _ => k))
  (at level 61, right associativity) : loop_scope.

(** The payload prefix of lines 166-167. *)
Definition count_bytes (dispenses_left : Z) : list Z :=
  [Z.land (Z.shiftr dispenses_left 8) 255; Z.land dispenses_left 255].

Section ControlLoop.

(** The floor that [calculate_actual_sleep_time] applies.  The
    specification asks for a minimum positive value and does not give it. *)
Variable min_sleep_s : Z.

(** Modelled from the spec: [calculate_actual_sleep_time] belongs to
    dot_util, which is missing.  The specification gives
    target interval minus time elapsed since the last wake, floored at a
    minimum positive value. *)
Definition calculate_actual_sleep_time (elapsed_s delay_s : Z) : Z :=
  Z.max min_sleep_s (delay_s - elapsed_s).

(** Modelled from the spec: [join_network] belongs to dot_util, which is
    missing.  It attempts a join, which succeeds or fails; the outcome is
    the join status the radio object reports afterwards. *)
Definition join_network (r : Reads) : Loop unit :=
  (modify (with_dot (setNetworkJoinStatus (join_result r))) ;;
   emit (JoinNetwork (join_result r)))%loop.

(** Lines 171-181: the two battery tests, each with its own pin read. *)
Definition battery_bytes (r : Reads) (tx_data : list Z) : Loop (list Z) :=
  (stored <- gets (fun s => get_battery_status (config s)) ;;
   tx1 <- (if lowBat_read_1 r && stored
           then modify (with_config alert_stable_battery) ;; ret (tx_data ++ [0])
           else ret tx_data) ;;
   if negb (lowBat_read_2 r)
   then modify (with_config alert_low_battery) ;; ret (tx1 ++ [1])
   else ret tx1)%loop.

(** Lines 133-203: one pass through the body of [while (true)]. *)
Definition loop_body (r : Reads) : Loop Path :=
  (modify (set_counter_interrupt (dispense_read r)) ;;
   pending <- gets counter_interrupt ;;
   if pending then
     modify (with_config decrease_dispenses_left) ;;
     modify (set_counter_interrupt false) ;;
     deadline <- gets sleep_until ;;
     emit (SleepWakeRtcOrInterrupt (wrap32 (deadline - time_null r)) deep_sleep) ;;
     ret FastPath
   else
     reset <- gets reset_interrupt ;;
     when reset (modify (set_reset_interrupt false)) ;;
     joined <- gets (fun s => getNetworkJoinStatus (dot s)) ;;
     when (negb joined)
          (join_network r ;; modify (with_dot (setDisableDutyCycle false))) ;;
     dispenses_left <- gets (fun s => get_dispenses_left (config s)) ;;
     tx_data <- battery_bytes r (count_bytes dispenses_left) ;;
     emit (SendData tx_data) ;;
     when deep_sleep (modify (with_dot saveNetworkSession)) ;;
     interval <- gets (fun s => get_tx_interval_s (config s)) ;;
     modify (set_sleep_until
               (wrap32 (time_null r
                        + calculate_actual_sleep_time (elapsed_since_wake r) interval))) ;;
     emit (SleepWakeRtcOrInterrupt
             (calculate_actual_sleep_time (elapsed_since_wake r) interval) deep_sleep) ;;
     ret TransmitPath)%loop.

(** One cycle: the handlers of the edges that arrive before the drain,
    then the loop body. *)
Definition cycle (c : list Edge * Reads) : Loop Path :=
  fun s => loop_body (snd c) (handle_all (fst c) s).

(** A finite prefix of the endless loop. *)
Fixpoint run (cs : list (list Edge * Reads)) (s : State) : State * list Action :=
  match cs with
  | [] => (s, [])
  | c :: cs' =>
      let '(_, s1, t1) := cycle c s in
      let '(s2, t2) := run cs' s1 in
      (s2, t1 ++ t2)
  end.

Definition main (cs : list (list Edge * Reads)) (cfg : ApplicationConfig) (d : mDot)
  : State * list Action :=
  run cs (boot (power_on cfg d)).

End ControlLoop.

(** Observations on the result of one pass. *)
Definition path_of (x : Path * State * list Action) : Path := fst (fst x).
Definition state_of (x : Path * State * list Action) : State := snd (fst x).
Definition trace_of (x : Path * State * list Action) : list Action := snd x.

Definition is_join (a : Action) : bool :=
  match a with JoinNetwork _ => true | _ => false end.

Definition sends (t : list Action) : list (list Z) :=
  flat_map (fun a => match a with SendData p => [p] | _ => [] end) t.

Definition sleeps (t : list Action) : list Z :=
  flat_map (fun a => match a with SleepWakeRtcOrInterrupt d _ => [d] | _ => [] end) t.

Definition is_reset_edge (e : Edge) : bool :=
  match e with ResetFall => true | _ => false end.

Definition is_low_battery_edge (e : Edge) : bool :=
  match e with LowBatFall => true | _ => false end.

Definition is_dispense_edge (e : Edge) : bool :=
  match e with DispenseRise => true | _ => false end.

(** Number of dispense edges in a sequence. *)
Fixpoint count_dispense (es : list Edge) : Z :=
  match es with
  | [] => 0
  | DispenseRise :: es' => 1 + count_dispense es'
  | _ :: es' => count_dispense es'
  end.

(** ** Sample data for the concrete checks *)

(** Settings of the scenario of the specification: counter at 1000, interval
    120 s, battery reported stable. *)
Definition sample_config : ApplicationConfig := mkApplicationConfig 1000 120 false.

(** A radio object that did not wake from standby and holds no session. *)
Definition cold_dot : mDot := mkDot false false false false.

(** A device in the middle of its life: joined, deadline at second 185. *)
Definition sample_state : State :=
  mkState sample_config (mkDot false true false false) false false false 185.


(** ** The statements of the specification that the code does not meet *)

(** "A wake in which the dispense signal is the only pending event joins and
    transmits nothing and sleeps for the remainder of the interval", with the
    dispense signal read as the latch the handler sets. *)
Definition dispense_latch_fast_path_spec (min_sleep_s : Z) : Prop :=
  forall (s : State) (r : Reads),
    counter_interrupt s = true ->
    reset_interrupt s = false ->
    0 <= time_null r < sleep_until s ->
    sleep_until s < 2 ^ 32 ->
    let out := loop_body min_sleep_s r s in
    existsb is_join (trace_of out) = false
    /\ sends (trace_of out) = []
    /\ sleeps (trace_of out) = [sleep_until s - time_null r].

(** "When a reset and dispenses are both pending at the drain the cycle is
    not short-circuited and ends with the counter at the full value." *)
Definition reset_precedence_spec (min_sleep_s : Z) : Prop :=
  forall (s : State) (es : list Edge) (r : Reads),
    In ResetFall es ->
    In DispenseRise es ->
    let out := cycle min_sleep_s (es, r) s in
    path_of out = TransmitPath
    /\ get_dispenses_left (config (state_of out)) = DISPENSES_FULL.

(** "The duty-cycle restriction is never disabled while the device is
    unjoined." *)
Definition duty_cycle_kept_until_join (s : State) : Prop :=
  getNetworkJoinStatus (dot s) = false -> duty_cycle_enforced (dot s) = true.

(** "A latch that its handler has set is cleared by the control loop": some
    continuation of the run brings the low-battery latch down again. *)
Definition low_battery_latch_consumed (min_sleep_s : Z) (s : State) : Prop :=
  exists cs : list (list Edge * Reads),
    low_battery_interrupt (fst (run min_sleep_s cs s)) = false.

(** * Properties *)

(** ** Building blocks *)

Ltac unfold_loop :=
  cbv [loop_body cycle battery_bytes join_network calculate_actual_sleep_time
       bind gets modify emit ret when deep_sleep
       path_of state_of trace_of sends sleeps is_join
       with_config with_dot set_counter_interrupt set_reset_interrupt
       set_low_battery_interrupt set_sleep_until
       setDisableDutyCycle setNetworkJoinStatus saveNetworkSession
       config dot counter_interrupt reset_interrupt low_battery_interrupt sleep_until
       get_dispenses_left get_tx_interval_s get_battery_status
       getStandbyFlag getNetworkJoinStatus getDisableDutyCycle nvm_session
       dispense_read time_null join_result lowBat_read_1 lowBat_read_2
       elapsed_since_wake
       fst snd app flat_map existsb map negb andb orb].

Lemma handlers_keep_dot (es : list Edge) (s : State) :
  dot (handle_all es s) = dot s.
Proof.
  revert s. induction es as [|e es IH]; intro s; [reflexivity|].
  cbn [handle_all fold_left]. fold (handle_all es (handle e s)).
  rewrite IH. destruct e; reflexivity.
Qed.


Lemma decrease_value (c : ApplicationConfig) :
  0 <= get_dispenses_left c ->
  get_dispenses_left (decrease_dispenses_left c) = Z.max 0 (get_dispenses_left c - 1).
Proof.
  intro H. cbn [decrease_dispenses_left get_dispenses_left].
  destruct (0 <? get_dispenses_left c) eqn:E.
  - apply Z.ltb_lt in E. lia.
  - apply Z.ltb_ge in E. lia.
Qed.

Lemma count_dispense_nonneg (es : list Edge) : 0 <= count_dispense es.
Proof.
  induction es as [|e es IH]; [reflexivity|].
  destruct e; cbn [count_dispense]; lia.
Qed.

(** Handlers of a sequence without reset edges: each dispense edge takes one
    unit off the counter, down to 0. *)
Lemma handlers_count_dispenses (es : list Edge) (s : State) :
  existsb is_reset_edge es = false ->
  0 <= get_dispenses_left (config s) ->
  get_dispenses_left (config (handle_all es s))
  = Z.max 0 (get_dispenses_left (config s) - count_dispense es).
Proof.
  revert s. induction es as [|e es IH]; intros s Hr Hs.
  - cbn. lia.
  - cbn [handle_all fold_left]. fold (handle_all es (handle e s)).
    destruct e; cbn [existsb is_reset_edge orb] in Hr; try discriminate.
    + rewrite IH; [|assumption|].
      * cbn [handle counter_dec with_config config set_counter_interrupt count_dispense].
        rewrite decrease_value by assumption.
        pose proof (count_dispense_nonneg es). lia.
      * cbn [handle counter_dec with_config config set_counter_interrupt].
        rewrite decrease_value by assumption. lia.
    + rewrite IH; [reflexivity|assumption|assumption].
Qed.

Lemma count_dispense_repeat (n : nat) :
  count_dispense (repeat DispenseRise n) = Z.of_nat n.
Proof.
  induction n as [|n IH]; [reflexivity|].
  cbn [repeat count_dispense]. rewrite IH. lia.
Qed.

Lemma repeat_dispense_no_reset (n : nat) :
  existsb is_reset_edge (repeat DispenseRise n) = false.
Proof. induction n as [|n IH]; [reflexivity|]. cbn. exact IH. Qed.

(** What the fast path does to the state and the trace. *)
Lemma fast_path_result (min_sleep_s : Z) (r : Reads) (s : State) :
  dispense_read r = true ->
  loop_body min_sleep_s r s
  = (FastPath,
     set_counter_interrupt false
       (with_config decrease_dispenses_left (set_counter_interrupt true s)),
     [SleepWakeRtcOrInterrupt (wrap32 (sleep_until s - time_null r)) false]).
Proof.
  intro H. destruct r; cbn in H; subst.
  destruct s. unfold_loop. reflexivity.
Qed.

Ltac split_state r s :=
  destruct r as [pin now joinok bat1 bat2 elapsed];
  destruct s as [[left interval stored] [standby joined nodc nvm] ci ri lbi deadline].

(** What the transmit path sends: the two count bytes, then a 0 when the
    first battery read is high and a low state is on record, then a 1 when
    the second battery read is low. *)
Lemma transmit_path_payload (min_sleep_s : Z) (r : Reads) (s : State) :
  dispense_read r = false ->
  sends (trace_of (loop_body min_sleep_s r s))
  = [count_bytes (get_dispenses_left (config s))
     ++ (if lowBat_read_1 r && get_battery_status (config s) then [0] else [])
     ++ (if negb (lowBat_read_2 r) then [1] else [])].
Proof.
  intro H. split_state r s. cbn in H; subst.
  destruct ri, joined, bat1, stored, bat2; reflexivity.
Qed.

Lemma transmit_path_config (min_sleep_s : Z) (r : Reads) (s : State) :
  dispense_read r = false ->
  path_of (loop_body min_sleep_s r s) = TransmitPath
  /\ get_dispenses_left (config (state_of (loop_body min_sleep_s r s)))
     = get_dispenses_left (config s)
  /\ get_tx_interval_s (config (state_of (loop_body min_sleep_s r s)))
     = get_tx_interval_s (config s)
  /\ get_battery_status (config (state_of (loop_body min_sleep_s r s)))
     = (if negb (lowBat_read_2 r) then true
        else if lowBat_read_1 r && get_battery_status (config s) then false
        else get_battery_status (config s)).
Proof.
  intro H. split_state r s. cbn in H; subst.
  destruct ri, joined, bat1, stored, bat2; repeat split; reflexivity.
Qed.


Lemma count_bytes_prefix (d : Z) (rest : list Z) :
  firstn 2 (count_bytes d ++ rest) = count_bytes d.
Proof. reflexivity. Qed.

(** ** Dispense counting *)

(** C1, as amended.  After n dispense edges during one sleep period the
    handlers have taken max(0, initial - n) as the new count.  When the
    dispense pin reads low at the drain the loop leaves that value alone and
    the payload starts with its two bytes; when the pin reads high the loop
    takes the fast path, sends nothing and decrements once more. *)
Theorem drain_counts_edges (min_sleep_s : Z) (s : State) (n : nat) (r : Reads) :
  0 <= get_dispenses_left (config s) ->
  let out := cycle min_sleep_s (repeat DispenseRise n, r) s in
  let initial := get_dispenses_left (config s) in
  get_dispenses_left (config (state_of out))
  = Z.max 0 (initial - Z.of_nat n - (if dispense_read r then 1 else 0))
  /\ map (firstn 2) (sends (trace_of out))
     = (if dispense_read r then []
        else [count_bytes (Z.max 0 (initial - Z.of_nat n))]).
Proof.
  intros Hpos out initial. subst out initial.
  unfold cycle. cbn [fst snd].
  pose proof (handlers_count_dispenses (repeat DispenseRise n) s
                (repeat_dispense_no_reset n) Hpos) as Hcount.
  rewrite count_dispense_repeat in Hcount.
  set (s1 := handle_all (repeat DispenseRise n) s) in *.
  destruct (dispense_read r) eqn:Hpin.
  - rewrite (fast_path_result min_sleep_s r s1 Hpin).
    cbn [state_of trace_of fst snd sends flat_map map].
    split; [|reflexivity].
    cbn [set_counter_interrupt with_config config].
    rewrite decrease_value by (rewrite Hcount; lia).
    rewrite Hcount. lia.
  - destruct (transmit_path_config min_sleep_s r s1 Hpin) as (_ & Hleft & _).
    rewrite Hleft, (transmit_path_payload min_sleep_s r s1 Hpin), Hcount.
    cbn [map]. rewrite count_bytes_prefix.
    split; [f_equal; lia | reflexivity].
Qed.

Lemma drain_counts_edges_witness :
  0 <= get_dispenses_left (config sample_state)
  /\ get_dispenses_left
       (config (state_of (cycle 10 (repeat DispenseRise 3,
                                    mkReads false 185 true true true 120)
                                sample_state))) = 997
  /\ map (firstn 2)
         (sends (trace_of (cycle 10 (repeat DispenseRise 3,
                                     mkReads false 185 true true true 120)
                                 sample_state))) = [[3; 229]].
Proof.
  split; [cbn; lia|].
  exact (drain_counts_edges 10 sample_state 3
           (mkReads false 185 true true true 120) ltac:(cbn; lia)).
Defined.

(** C1, as stated, fails: three dispense edges from 1000 with the pin still
    high at the drain leave 996, not max(0, 1000 - 3). *)
Lemma dispense_high_at_drain_counts_twice :
  get_dispenses_left
    (config (state_of (cycle 10 (repeat DispenseRise 3,
                                 mkReads true 100 true true true 35)
                             sample_state)))
  <> Z.max 0 (1000 - 3).
Proof. vm_compute. discriminate. Qed.

(** ** The dispense fast path *)

Lemma wrap32_small (z : Z) : 0 <= z < 2 ^ 32 -> wrap32 z = z.
Proof. intro H. unfold wrap32. apply Z.mod_small. exact H. Qed.

(** C2, as amended.  A wake at which the dispense pin reads high, before the
    deadline, joins nothing, transmits nothing, asks for a sleep of exactly
    [sleep_until - now] seconds and leaves the deadline where it was.  The
    reset latch plays no part in it. *)
Theorem dispense_pin_fast_path (min_sleep_s : Z) (s : State) (r : Reads) :
  dispense_read r = true ->
  0 <= time_null r <= sleep_until s ->
  sleep_until s < 2 ^ 32 ->
  let out := loop_body min_sleep_s r s in
  path_of out = FastPath
  /\ existsb is_join (trace_of out) = false
  /\ sends (trace_of out) = []
  /\ sleeps (trace_of out) = [sleep_until s - time_null r]
  /\ sleep_until (state_of out) = sleep_until s.
Proof.
  intros Hpin Hnow Hrange out. subst out.
  rewrite (fast_path_result min_sleep_s r s Hpin).
  cbn [path_of state_of trace_of fst snd existsb is_join sends sleeps flat_map app
       set_counter_interrupt with_config sleep_until orb].
  rewrite wrap32_small by lia.
  repeat split; reflexivity.
Qed.

Lemma dispense_pin_fast_path_witness :
  let r := mkReads true 100 true true true 35 in
  let out := loop_body 10 r sample_state in
  path_of out = FastPath
  /\ existsb is_join (trace_of out) = false
  /\ sends (trace_of out) = []
  /\ sleeps (trace_of out) = [85]
  /\ sleep_until (state_of out) = 185.
Proof.
  exact (dispense_pin_fast_path 10 sample_state
           (mkReads true 100 true true true 35)
           eq_refl ltac:(cbn; lia) ltac:(cbn; lia)).
Defined.

(** C2, as stated, fails: the handler has set the dispense latch, no reset
    is pending and the deadline (185) lies ahead of the clock (100), yet with
    the pin back low at the drain the loop transmits. *)
Lemma latched_dispense_with_pin_low_transmits :
  ~ dispense_latch_fast_path_spec 10.
Proof.
  intro H.
  specialize (H (counter_dec sample_state) (mkReads false 100 true true true 35)
                eq_refl eq_refl ltac:(cbn; lia) ltac:(cbn; lia)).
  destruct H as (_ & Hsend & _).
  vm_compute in Hsend. discriminate Hsend.
Qed.

(** ** Latches *)

Lemma loop_body_latches (min_sleep_s : Z) (r : Reads) (s : State) :
  counter_interrupt (state_of (loop_body min_sleep_s r s)) = false
  /\ reset_interrupt (state_of (loop_body min_sleep_s r s))
     = (dispense_read r && reset_interrupt s)
  /\ low_battery_interrupt (state_of (loop_body min_sleep_s r s))
     = low_battery_interrupt s.
Proof.
  split_state r s.
  destruct pin, ri, joined, bat1, stored, bat2; repeat split; reflexivity.
Qed.

Lemma handle_all_app (es1 es2 : list Edge) (s : State) :
  handle_all (es1 ++ es2) s = handle_all es2 (handle_all es1 s).
Proof. unfold handle_all. apply fold_left_app. Qed.

Lemma handlers_keep_reset_latch (es : list Edge) (s : State) :
  reset_interrupt s = true -> reset_interrupt (handle_all es s) = true.
Proof.
  revert s. induction es as [|e es IH]; intros s H; [exact H|].
  cbn [handle_all fold_left]. fold (handle_all es (handle e s)).
  apply IH. destruct e; cbn; try exact H; reflexivity.
Qed.

Lemma handlers_low_battery_latch (es : list Edge) (s : State) :
  low_battery_interrupt (handle_all es s)
  = (low_battery_interrupt s || existsb is_low_battery_edge es).
Proof.
  revert s. induction es as [|e es IH]; intro s.
  - cbn. now rewrite orb_false_r.
  - cbn [handle_all fold_left]. fold (handle_all es (handle e s)).
    rewrite IH. destruct e; cbn; try reflexivity.
    now rewrite orb_true_r.
Qed.

(** ** Reset against the fast path *)

(** C3, as amended.  The counter is reset by the handler, at the edge; the
    loop tests the dispense pin before it looks at the reset latch.  With k
    dispense edges after the last reset edge, a pin that reads high at the
    drain short-circuits the cycle, leaves the reset latch set and the count
    at max(0, full - k - 1); a pin that reads low lets the cycle clear the
    latch and go on to transmit with the count at max(0, full - k). *)
Theorem reset_then_dispenses (min_sleep_s : Z) (s : State)
        (before after : list Edge) (r : Reads) :
  existsb is_reset_edge after = false ->
  let out := cycle min_sleep_s (before ++ ResetFall :: after, r) s in
  path_of out = (if dispense_read r then FastPath else TransmitPath)
  /\ reset_interrupt (state_of out) = dispense_read r
  /\ get_dispenses_left (config (state_of out))
     = Z.max 0 (DISPENSES_FULL - count_dispense after
                - (if dispense_read r then 1 else 0)).
Proof.
  intros Hafter out. subst out.
  unfold cycle. cbn [fst snd].
  rewrite handle_all_app.
  change (handle_all (ResetFall :: after) (handle_all before s))
    with (handle_all after (counter_reset (handle_all before s))).
  set (s0 := counter_reset (handle_all before s)).
  assert (Hfull : get_dispenses_left (config s0) = DISPENSES_FULL) by reflexivity.
  assert (Hlatch : reset_interrupt s0 = true) by reflexivity.
  pose proof (handlers_count_dispenses after s0 Hafter
                ltac:(rewrite Hfull; unfold DISPENSES_FULL; lia)) as Hcount.
  pose proof (handlers_keep_reset_latch after s0 Hlatch) as Hreset.
  rewrite Hfull in Hcount.
  set (s1 := handle_all after s0) in *.
  destruct (loop_body_latches min_sleep_s r s1) as (_ & Hri & _).
  rewrite Hri, Hreset, andb_true_r.
  destruct (dispense_read r) eqn:Hpin.
  - rewrite (fast_path_result min_sleep_s r s1 Hpin).
    cbn [path_of state_of fst snd set_counter_interrupt with_config config].
    repeat split.
    rewrite decrease_value by (rewrite Hcount; lia).
    rewrite Hcount. lia.
  - destruct (transmit_path_config min_sleep_s r s1 Hpin) as (Hpath & Hleft & _).
    rewrite Hpath, Hleft, Hcount.
    repeat split. f_equal. lia.
Qed.

Lemma reset_then_dispenses_witness :
  let out := cycle 10 ([DispenseRise; ResetFall; DispenseRise; DispenseRise],
                       mkReads false 185 true true true 120) sample_state in
  path_of out = TransmitPath
  /\ reset_interrupt (state_of out) = false
  /\ get_dispenses_left (config (state_of out)) = 998.
Proof.
  exact (reset_then_dispenses 10 sample_state [DispenseRise]
           [DispenseRise; DispenseRise]
           (mkReads false 185 true true true 120) eq_refl).
Defined.

(** C3, as stated, fails: a reset edge and a dispense edge are both pending
    and the pin is high at the drain; the cycle goes straight back to sleep
    and the count is 999. *)
Lemma fast_path_wins_over_reset :
  ~ reset_precedence_spec 10.
Proof.
  intro H.
  specialize (H sample_state [ResetFall; DispenseRise]
                (mkReads true 100 true true true 35)
                ltac:(cbn; auto) ltac:(cbn; auto)).
  destruct H as (Hpath & _).
  vm_compute in Hpath. discriminate Hpath.
Qed.

(** ** Runs of the loop *)

Lemma run_cons (min_sleep_s : Z) (c : list Edge * Reads)
      (cs : list (list Edge * Reads)) (s : State) :
  run min_sleep_s (c :: cs) s
  = (fst (run min_sleep_s cs (state_of (cycle min_sleep_s c s))),
     trace_of (cycle min_sleep_s c s)
     ++ snd (run min_sleep_s cs (state_of (cycle min_sleep_s c s)))).
Proof.
  cbn [run]. unfold state_of, trace_of.
  destruct (cycle min_sleep_s c s) as [[p s1] t1]. cbn [fst snd].
  destruct (run min_sleep_s cs s1) as [s2 t2]. reflexivity.
Qed.

Lemma cycle_low_battery_latch (min_sleep_s : Z) (c : list Edge * Reads) (s : State) :
  low_battery_interrupt (state_of (cycle min_sleep_s c s))
  = (low_battery_interrupt s || existsb is_low_battery_edge (fst c)).
Proof.
  unfold cycle.
  destruct (loop_body_latches min_sleep_s (snd c) (handle_all (fst c) s)) as (_ & _ & H).
  rewrite H. apply handlers_low_battery_latch.
Qed.

(** The loop never writes the low-battery latch: over a run it is up exactly
    when it was up before or some low-battery edge arrived. *)
Lemma run_low_battery_latch (min_sleep_s : Z) (cs : list (list Edge * Reads)) (s : State) :
  low_battery_interrupt (fst (run min_sleep_s cs s))
  = (low_battery_interrupt s
     || existsb (fun c => existsb is_low_battery_edge (fst c)) cs).
Proof.
  revert s. induction cs as [|c cs IH]; intro s.
  - cbn. now rewrite orb_false_r.
  - rewrite run_cons. cbn [fst existsb].
    rewrite IH, cycle_low_battery_latch. now rewrite orb_assoc.
Qed.

(** C8, as amended.  After every pass the dispense latch is down, whatever
    the handler had stored in it; the reset latch is brought down by a pass
    that does not take the fast path and survives one that does; the
    low-battery latch is never written by the loop, so once a low-battery
    edge has set it, it stays set for the rest of the run. *)
Theorem latch_discipline (min_sleep_s : Z) (r : Reads) (s : State)
        (cs : list (list Edge * Reads)) :
  let out := loop_body min_sleep_s r s in
  counter_interrupt (state_of out) = false
  /\ reset_interrupt (state_of out) = (dispense_read r && reset_interrupt s)
  /\ low_battery_interrupt (state_of out) = low_battery_interrupt s
  /\ low_battery_interrupt (fst (run min_sleep_s cs (low_battery s))) = true.
Proof.
  intro out. subst out.
  destruct (loop_body_latches min_sleep_s r s) as (H1 & H2 & H3).
  repeat split; try assumption.
  rewrite run_low_battery_latch. reflexivity.
Qed.

(** C8, as stated, fails: once the low-battery handler has run, no
    continuation of the loop brings its latch down. *)
Lemma low_battery_latch_never_cleared :
  ~ low_battery_latch_consumed 10 (low_battery sample_state).
Proof.
  intros [cs H]. rewrite run_low_battery_latch in H.
  cbn in H. discriminate H.
Qed.

(** ** Sleep duration *)

(** C4, at its failing input.  Straight after a cold boot [sleep_until] is
    still 0; if the dispense pin is high on the first pass, 5 seconds into
    the clock, the fast path asks for 0 - 5 modulo 2^32 seconds of sleep. *)
Theorem first_pass_fast_path_sleep_wraps :
  sleeps (snd (main 10 [([], mkReads true 5 true true true 0)]
                    sample_config cold_dot))
  = [4294967291].
Proof. vm_compute. reflexivity. Qed.

(** X7.  The same for any pass that reaches the fast path after its
    deadline: with the clock k seconds past [sleep_until] the subtraction of
    line 143 wraps and the pass asks for 2^32 - k seconds of sleep. *)
Lemma fast_path_overrun_wraps (min_sleep_s : Z) (s : State) (r : Reads) :
  dispense_read r = true ->
  0 <= sleep_until s < time_null r ->
  time_null r < 2 ^ 32 ->
  sleeps (trace_of (loop_body min_sleep_s r s))
  = [2 ^ 32 - (time_null r - sleep_until s)].
Proof.
  intros Hpin Hlate Hrange.
  rewrite (fast_path_result min_sleep_s r s Hpin).
  cbn [trace_of snd sleeps flat_map app]. f_equal.
  unfold wrap32.
  replace (sleep_until s - time_null r)
    with (2 ^ 32 - (time_null r - sleep_until s) + (-1) * 2 ^ 32) by lia.
  rewrite Z.mod_add by lia.
  apply Z.mod_small. lia.
Qed.

(** ** Duty cycle *)

Lemma loop_body_dot (min_sleep_s : Z) (r : Reads) (s : State) :
  let out := loop_body min_sleep_s r s in
  getDisableDutyCycle (dot (state_of out))
  = (if existsb is_join (trace_of out) then false else getDisableDutyCycle (dot s))
  /\ getNetworkJoinStatus (dot (state_of out))
     = (if existsb is_join (trace_of out) then join_result r
        else getNetworkJoinStatus (dot s))
  /\ existsb is_join (trace_of out)
     = (negb (dispense_read r) && negb (getNetworkJoinStatus (dot s))).
Proof.
  split_state r s.
  destruct pin, ri, joined, bat1, stored, bat2; repeat split; reflexivity.
Qed.

Lemma run_dot (min_sleep_s : Z) (cs : list (list Edge * Reads)) (s : State) :
  getDisableDutyCycle (dot (fst (run min_sleep_s cs s)))
  = (if existsb is_join (snd (run min_sleep_s cs s)) then false
     else getDisableDutyCycle (dot s))
  /\ (if existsb is_join (snd (run min_sleep_s cs s)) then True
      else getNetworkJoinStatus (dot (fst (run min_sleep_s cs s)))
           = getNetworkJoinStatus (dot s)).
Proof.
  revert s. induction cs as [|c cs IH]; intro s.
  - cbn. split; reflexivity.
  - rewrite run_cons. cbn [fst snd]. rewrite existsb_app.
    destruct (IH (state_of (cycle min_sleep_s c s))) as [IH1 IH2].
    unfold cycle in *.
    destruct (loop_body_dot min_sleep_s (snd c) (handle_all (fst c) s))
      as (Hdc & Hjoin & _).
    rewrite handlers_keep_dot in Hdc, Hjoin.
    rewrite IH1.
    destruct (existsb is_join (snd (run min_sleep_s cs _)));
      destruct (existsb is_join (trace_of _)); cbn [orb];
      split; auto; try congruence.
Qed.

(** C5, as amended.  Cold-boot provisioning turns the library's
    disable-duty-cycle switch on, so the restriction is off while the device
    is unjoined; the first pass that finds the device unjoined calls the join
    and then turns the switch off, whatever the join returned.  Over any run
    from a cold boot the switch is on exactly as long as no join has been
    attempted, and until then the device is unjoined. *)
Theorem duty_cycle_switch (min_sleep_s : Z) (cs : list (list Edge * Reads))
        (cfg : ApplicationConfig) (d : mDot) :
  getStandbyFlag d = false ->
  let out := main min_sleep_s cs cfg d in
  getDisableDutyCycle (dot (fst out)) = negb (existsb is_join (snd out))
  /\ (if existsb is_join (snd out) then True
      else getNetworkJoinStatus (dot (fst out)) = false).
Proof.
  intros Hcold out. subst out. unfold main.
  assert (Hboot : getDisableDutyCycle (dot (boot (power_on cfg d))) = true
                  /\ getNetworkJoinStatus (dot (boot (power_on cfg d))) = false).
  { unfold boot, power_on. cbn [dot]. rewrite Hcold. cbn [negb].
    unfold provision.
    destruct (60 <? _); split; reflexivity. }
  destruct Hboot as [Hdc Hjoin].
  destruct (run_dot min_sleep_s cs (boot (power_on cfg d))) as [H1 H2].
  rewrite H1, Hdc.
  destruct (existsb is_join _); split; auto.
  rewrite H2. exact Hjoin.
Qed.

Lemma duty_cycle_switch_witness :
  let out := main 10 [([DispenseRise], mkReads true 5 true true true 0);
                      ([], mkReads false 60 false true true 2)]
                  sample_config cold_dot in
  getDisableDutyCycle (dot (fst out)) = negb (existsb is_join (snd out))
  /\ (if existsb is_join (snd out) then True
      else getNetworkJoinStatus (dot (fst out)) = false).
Proof.
  exact (duty_cycle_switch 10
           [([DispenseRise], mkReads true 5 true true true 0);
            ([], mkReads false 60 false true true 2)]
           sample_config cold_dot eq_refl).
Defined.

(** C5, as stated, fails: after a cold boot the device is unjoined and the
    duty-cycle restriction is switched off. *)
Lemma restriction_off_before_join :
  ~ duty_cycle_kept_until_join (boot (power_on sample_config cold_dot)).
Proof.
  intro H. specialize (H eq_refl). vm_compute in H. discriminate H.
Qed.

(** ** Battery status *)

Lemma handlers_keep_battery_status (es : list Edge) (s : State) :
  existsb is_low_battery_edge es = false ->
  get_battery_status (config (handle_all es s)) = get_battery_status (config s).
Proof.
  revert s. induction es as [|e es IH]; intros s H; [reflexivity|].
  cbn [handle_all fold_left]. fold (handle_all es (handle e s)).
  destruct e; cbn [existsb is_low_battery_edge orb] in H; try discriminate;
    rewrite (IH _ H); reflexivity.
Qed.

Lemma status_suffix (d : Z) (rest : list Z) :
  skipn 2 (count_bytes d ++ rest) = rest.
Proof. reflexivity. Qed.

(** X15.  Take two consecutive transmit cycles, in each of which both samples
    of the battery pin agree, with no low-battery edge in between.  A low
    reading appends the single byte 1 and records the low state, whatever was
    on record; a healthy reading appends the single byte 0 and clears the
    record when a low state was on record, and appends nothing otherwise.
    So low readings resend the alert in each cycle, and of consecutive
    healthy readings only the first after a low state carries the byte 0. *)
Theorem battery_alert_policy (min_sleep_s : Z) (s : State) (r1 r2 : Reads)
        (es : list Edge) :
  dispense_read r1 = false ->
  dispense_read r2 = false ->
  lowBat_read_2 r1 = lowBat_read_1 r1 ->
  lowBat_read_2 r2 = lowBat_read_1 r2 ->
  existsb is_low_battery_edge es = false ->
  let out1 := loop_body min_sleep_s r1 s in
  let out2 := cycle min_sleep_s (es, r2) (state_of out1) in
  map (skipn 2) (sends (trace_of out1))
  = [if lowBat_read_1 r1
     then (if get_battery_status (config s) then [0] else [])
     else [1]]
  /\ get_battery_status (config (state_of out1)) = negb (lowBat_read_1 r1)
  /\ map (skipn 2) (sends (trace_of out2))
     = [if lowBat_read_1 r2
        then (if lowBat_read_1 r1 then [] else [0])
        else [1]]
  /\ get_battery_status (config (state_of out2)) = negb (lowBat_read_1 r2).
Proof.
  intros Htx1 Htx2 Hsame1 Hsame2 Hquiet out1 out2. subst out1 out2.
  unfold cycle. cbn [fst snd].
  set (s1 := state_of (loop_body min_sleep_s r1 s)).
  assert (Hstored1 : get_battery_status (config s1) = negb (lowBat_read_1 r1)).
  { subst s1.
    destruct (transmit_path_config min_sleep_s r1 s Htx1) as (_ & _ & _ & H).
    rewrite H, Hsame1.
    destruct (lowBat_read_1 r1), (get_battery_status (config s)); reflexivity. }
  set (s2 := handle_all es s1).
  assert (Hstored2 : get_battery_status (config s2) = negb (lowBat_read_1 r1)).
  { subst s2. rewrite handlers_keep_battery_status by assumption. exact Hstored1. }
  destruct (transmit_path_config min_sleep_s r2 s2 Htx2) as (_ & _ & _ & Hafter).
  rewrite (transmit_path_payload min_sleep_s r1 s Htx1).
  rewrite (transmit_path_payload min_sleep_s r2 s2 Htx2).
  rewrite Hafter, Hstored2, Hstored1, Hsame1, Hsame2.
  cbn [map]. rewrite !status_suffix.
  destruct (lowBat_read_1 r1), (lowBat_read_1 r2),
    (get_battery_status (config s)); repeat split; reflexivity.
Qed.

Lemma battery_alert_policy_witness :
  let low := mkReads false 185 true false false 120 in
  let healthy := mkReads false 245 true true true 120 in
  let out1 := loop_body 10 low sample_state in
  let out2 := cycle 10 ([DispenseRise], healthy) (state_of out1) in
  let out3 := cycle 10 ([], healthy) (state_of out2) in
  (map (skipn 2) (sends (trace_of out1)) = [[1]]
   /\ get_battery_status (config (state_of out1)) = true
   /\ map (skipn 2) (sends (trace_of out2)) = [[0]]
   /\ get_battery_status (config (state_of out2)) = false)
  /\ map (skipn 2) (sends (trace_of out3)) = [[]].
Proof.
  split.
  - exact (battery_alert_policy 10 sample_state
             (mkReads false 185 true false false 120)
             (mkReads false 245 true true true 120)
             [DispenseRise] eq_refl eq_refl eq_refl eq_refl eq_refl).
  - exact (proj1 (proj2 (proj2
             (battery_alert_policy 10
                (state_of (loop_body 10 (mkReads false 185 true false false 120)
                                     sample_state))
                (mkReads false 245 true true true 120)
                (mkReads false 245 true true true 120)
                [] eq_refl eq_refl eq_refl eq_refl eq_refl)))).
Defined.

(** C6, at its failing input.  A low state is on record and the battery pin
    falls between the two samples of one transmit pass: the first sample
    reads high, so the byte 0 is appended and the record cleared, and the
    second reads low, so the byte 1 follows and the record is set again.  The
    pass that saw a healthy pin with a low state on record ends with two
    status bytes and the low state still on record.  The other way round,
    with nothing on record, a pin that reads low at the first sample and high
    at the second yields no status byte at all. *)
Theorem battery_samples_disagree :
  let fall := loop_body 10 (mkReads false 185 true true false 120)
                        (with_config alert_low_battery sample_state) in
  let rise := loop_body 10 (mkReads false 185 true false true 120) sample_state in
  (map (skipn 2) (sends (trace_of fall)) = [[0; 1]]
   /\ get_battery_status (config (state_of fall)) = true)
  /\ (map (skipn 2) (sends (trace_of rise)) = [[]]
      /\ get_battery_status (config (state_of rise)) = false).
Proof. vm_compute. repeat split. Qed.

(** ** Payload *)

Lemma count_bytes_big_endian (d : Z) :
  0 <= d < 2 ^ 16 ->
  count_bytes d = [d / 256; d mod 256]
  /\ 0 <= d / 256 < 256
  /\ 256 * (d / 256) + d mod 256 = d.
Proof.
  intro H. unfold count_bytes.
  change 255 with (Z.ones 8).
  rewrite !Z.land_ones by lia.
  rewrite Z.shiftr_div_pow2 by lia.
  change (2 ^ 8) with 256.
  assert (0 <= d / 256 < 256).
  { split; [apply Z.div_pos; lia | apply Z.div_lt_upper_bound; lia]. }
  rewrite (Z.mod_small (d / 256)) by lia.
  repeat split; try lia.
  pose proof (Z.div_mod d 256). lia.
Qed.

(** With both samples of the battery pin in agreement the payload has two
    or three bytes. *)
Lemma payload_length_when_reads_agree (min_sleep_s : Z) (r : Reads) (s : State) :
  dispense_read r = false ->
  lowBat_read_2 r = lowBat_read_1 r ->
  exists payload,
    sends (trace_of (loop_body min_sleep_s r s)) = [payload]
    /\ (length payload = 2%nat \/ length payload = 3%nat).
Proof.
  intros Htx Hsame. eexists. split.
  - apply (transmit_path_payload min_sleep_s r s Htx).
  - rewrite Hsame.
    destruct (lowBat_read_1 r), (get_battery_status (config s)); cbn; auto.
Qed.

(** C7, at its failing input.  A low state is on record, the first sample
    of the battery pin is high and the second is low: the payload carries
    both status bytes after the count and is four bytes long. *)
Theorem battery_drop_between_reads_sends_four_bytes :
  sends (trace_of (loop_body 10 (mkReads false 185 true true false 120)
                             (with_config alert_low_battery sample_state)))
  = [[3; 232; 0; 1]].
Proof. vm_compute. reflexivity. Qed.

(** ** Reporting interval *)

Lemma handlers_keep_interval (es : list Edge) (s : State) :
  get_tx_interval_s (config (handle_all es s)) = get_tx_interval_s (config s).
Proof.
  revert s. induction es as [|e es IH]; intro s; [reflexivity|].
  cbn [handle_all fold_left]. fold (handle_all es (handle e s)).
  rewrite IH. destruct e; reflexivity.
Qed.

Lemma loop_body_keeps_interval (min_sleep_s : Z) (r : Reads) (s : State) :
  get_tx_interval_s (config (state_of (loop_body min_sleep_s r s)))
  = get_tx_interval_s (config s).
Proof.
  destruct (dispense_read r) eqn:Hpin.
  - rewrite (fast_path_result min_sleep_s r s Hpin). reflexivity.
  - now destruct (transmit_path_config min_sleep_s r s Hpin) as (_ & _ & H & _).
Qed.

Lemma run_keeps_interval (min_sleep_s : Z) (cs : list (list Edge * Reads)) (s : State) :
  get_tx_interval_s (config (fst (run min_sleep_s cs s)))
  = get_tx_interval_s (config s).
Proof.
  revert s. induction cs as [|c cs IH]; intro s; [reflexivity|].
  rewrite run_cons. cbn [fst]. rewrite IH. unfold cycle.
  rewrite loop_body_keeps_interval. apply handlers_keep_interval.
Qed.

(** C9.  On a cold boot the stored interval is cut down to the ceiling of 60
    seconds before the loop starts; on a wake from standby the only thing
    done is the restoring of the network session, and the stored interval is
    kept.  No pass of the loop and no handler changes the interval
    afterwards. *)
Theorem interval_ceiling_at_cold_start (min_sleep_s : Z)
        (cs : list (list Edge * Reads)) (cfg : ApplicationConfig) (d : mDot) :
  let booted := boot (power_on cfg d) in
  (if getStandbyFlag d
   then booted = with_dot restoreNetworkSession (power_on cfg d)
        /\ get_tx_interval_s (config booted) = get_tx_interval_s cfg
   else get_tx_interval_s (config booted) = Z.min 60 (get_tx_interval_s cfg))
  /\ get_tx_interval_s (config (fst (main min_sleep_s cs cfg d)))
     = get_tx_interval_s (config booted).
Proof.
  intro booted. subst booted. split.
  - unfold boot, power_on. cbn [dot].
    destruct (getStandbyFlag d); cbn [negb]; [split; reflexivity|].
    unfold provision. cbn [config].
    destruct (60 <? get_tx_interval_s cfg) eqn:E; cbn.
    + apply Z.ltb_lt in E. lia.
    + apply Z.ltb_ge in E. lia.
  - unfold main. apply run_keeps_interval.
Qed.

(** ** Classification of a wake *)

(** C10.  The result of a pass does not depend on what the handler left in
    the dispense latch: the pin level read at the top of the pass decides.
    After one dispense edge, a pin that reads low sends the cycle down the
    transmit path with the handler's single decrement; a pin that reads high
    sends it down the fast path, with nothing transmitted and a second
    decrement on top of the handler's. *)
Theorem dispense_classified_by_pin_level (min_sleep_s : Z) (r : Reads) (s : State)
        (latch : bool) :
  let out := cycle min_sleep_s ([DispenseRise], r) s in
  loop_body min_sleep_s r (set_counter_interrupt latch s) = loop_body min_sleep_s r s
  /\ path_of out = (if dispense_read r then FastPath else TransmitPath)
  /\ length (sends (trace_of out)) = (if dispense_read r then 0%nat else 1%nat)
  /\ get_dispenses_left (config (state_of out))
     = get_dispenses_left
         (if dispense_read r
          then decrease_dispenses_left (decrease_dispenses_left (config s))
          else decrease_dispenses_left (config s)).
Proof.
  intro out. subst out. split.
  - split_state r s.
    destruct pin, ri, joined, bat1, stored, bat2; reflexivity.
  - unfold cycle. cbn [fst snd handle_all fold_left handle].
    destruct (dispense_read r) eqn:Hpin.
    + rewrite (fast_path_result min_sleep_s r (counter_dec s) Hpin).
      repeat split.
    + destruct (transmit_path_config min_sleep_s r (counter_dec s) Hpin)
        as (Hpath & Hleft & _).
      rewrite Hpath, Hleft, (transmit_path_payload min_sleep_s r (counter_dec s) Hpin).
      repeat split.
Qed.

(** * Further properties of the code *)

(** ** Handlers *)

Lemma handlers_keep_sleep_until (es : list Edge) (s : State) :
  sleep_until (handle_all es s) = sleep_until s.
Proof.
  revert s. induction es as [|e es IH]; intro s; [reflexivity|].
  cbn [handle_all fold_left]. fold (handle_all es (handle e s)).
  rewrite IH. destruct e; reflexivity.
Qed.

(** X1.  The handlers only ever raise latches.  After the handlers of any
    sequence of edges each latch is up exactly when it was up before or an
    edge of its kind arrived, and neither the radio object nor the wake
    deadline has been touched. *)
Theorem handlers_only_raise_latches (es : list Edge) (s : State) :
  counter_interrupt (handle_all es s)
  = (counter_interrupt s || existsb is_dispense_edge es)
  /\ reset_interrupt (handle_all es s)
     = (reset_interrupt s || existsb is_reset_edge es)
  /\ low_battery_interrupt (handle_all es s)
     = (low_battery_interrupt s || existsb is_low_battery_edge es)
  /\ dot (handle_all es s) = dot s
  /\ sleep_until (handle_all es s) = sleep_until s.
Proof.
  revert s. induction es as [|e es IH]; intro s.
  - cbn. rewrite !orb_false_r. repeat split.
  - cbn [handle_all fold_left]. fold (handle_all es (handle e s)).
    destruct (IH (handle e s)) as (Hc & Hr & Hl & Hd & Hs).
    rewrite Hc, Hr, Hl, Hd, Hs.
    destruct e; cbn;
      destruct (counter_interrupt s), (reset_interrupt s),
        (low_battery_interrupt s); repeat split; reflexivity.
Qed.

(** ** Passes *)

(** X2.  Neither the reset latch nor the low-battery latch steers a pass:
    with either latch up or down the pass takes the same path, performs the
    same joins, sends and sleeps, and leaves the same settings, radio state,
    deadline and dispense latch. *)
Theorem reset_and_battery_latches_do_not_steer (min_sleep_s : Z) (r : Reads)
        (s : State) (reset battery : bool) :
  let out := loop_body min_sleep_s r s in
  let out' := loop_body min_sleep_s r
                (set_low_battery_interrupt battery (set_reset_interrupt reset s)) in
  path_of out' = path_of out
  /\ trace_of out' = trace_of out
  /\ config (state_of out') = config (state_of out)
  /\ dot (state_of out') = dot (state_of out)
  /\ sleep_until (state_of out') = sleep_until (state_of out)
  /\ counter_interrupt (state_of out') = counter_interrupt (state_of out).
Proof.
  intros out out'. subst out out'. split_state r s.
  destruct pin, ri, reset, joined, bat1, stored, bat2; repeat split; reflexivity.
Qed.

Lemma pass_trace_counts (min_sleep_s : Z) (r : Reads) (s : State) :
  length (sleeps (trace_of (loop_body min_sleep_s r s))) = 1%nat
  /\ length (sends (trace_of (loop_body min_sleep_s r s)))
     = (if dispense_read r then 0%nat else 1%nat)
  /\ (length (filter is_join (trace_of (loop_body min_sleep_s r s)))
      <= length (sends (trace_of (loop_body min_sleep_s r s))))%nat.
Proof.
  split_state r s.
  destruct pin, ri, joined, bat1, stored, bat2; cbn; repeat split; lia.
Qed.

(** X3.  Over any run every pass asks for sleep exactly once, a payload is
    sent exactly once per pass whose dispense pin reads low, and there are
    never more join attempts than payloads. *)
Theorem run_trace_counts (min_sleep_s : Z) (cs : list (list Edge * Reads))
        (s : State) :
  let t := snd (run min_sleep_s cs s) in
  length (sleeps t) = length cs
  /\ length (sends t)
     = length (filter (fun c => negb (dispense_read (snd c))) cs)
  /\ (length (filter is_join t) <= length (sends t))%nat.
Proof.
  cbv zeta. revert s. induction cs as [|c cs IH]; intro s.
  - cbn. repeat split; lia.
  - rewrite run_cons. cbn [snd].
    unfold sleeps, sends in *.
    rewrite !flat_map_app, filter_app, !length_app.
    destruct (IH (state_of (cycle min_sleep_s c s))) as (H1 & H2 & H3).
    unfold cycle in *.
    destruct (pass_trace_counts min_sleep_s (snd c) (handle_all (fst c) s))
      as (P1 & P2 & P3).
    unfold sleeps, sends in P1, P2, P3.
    rewrite H1, H2, P1, P2.
    rewrite P2 in P3. rewrite H2 in H3.
    cbn [filter length].
    destruct (dispense_read (snd c)); cbn [negb length]; repeat split; lia.
Qed.

(** X4.  A burst of dispense wakes: as long as every pass of a run finds the
    dispense pin high, nothing is sent, no join is attempted, and the radio
    object and the wake deadline stay as they were, whatever edges arrive in
    between. *)
Theorem dispense_burst_keeps_deadline (min_sleep_s : Z)
        (cs : list (list Edge * Reads)) (s : State) :
  forallb (fun c => dispense_read (snd c)) cs = true ->
  let out := run min_sleep_s cs s in
  sends (snd out) = []
  /\ existsb is_join (snd out) = false
  /\ dot (fst out) = dot s
  /\ sleep_until (fst out) = sleep_until s.
Proof.
  cbv zeta. revert s. induction cs as [|c cs IH]; intros s Hall.
  - cbn. repeat split.
  - cbn [forallb] in Hall. apply andb_true_iff in Hall. destruct Hall as [Hc Hcs].
    rewrite run_cons. cbn [fst snd].
    destruct (IH (state_of (cycle min_sleep_s c s)) Hcs) as (H1 & H2 & H3 & H4).
    unfold sends in *. rewrite flat_map_app, existsb_app, H1, H2, H3, H4.
    unfold cycle.
    rewrite (fast_path_result min_sleep_s (snd c) (handle_all (fst c) s) Hc).
    cbn [state_of trace_of fst snd flat_map existsb is_join app orb
         set_counter_interrupt with_config dot sleep_until].
    rewrite handlers_keep_dot, handlers_keep_sleep_until.
    repeat split.
Qed.

Lemma dispense_burst_keeps_deadline_witness :
  let out := run 10 [([DispenseRise], mkReads true 100 true true true 35);
                     ([ResetFall; DispenseRise], mkReads true 120 true false false 55)]
                 sample_state in
  sends (snd out) = []
  /\ existsb is_join (snd out) = false
  /\ dot (fst out) = dot sample_state
  /\ sleep_until (fst out) = 185.
Proof.
  exact (dispense_burst_keeps_deadline 10
           [([DispenseRise], mkReads true 100 true true true 35);
            ([ResetFall; DispenseRise], mkReads true 120 true false false 55)]
           sample_state eq_refl).
Defined.

(** ** Payload bytes *)

Lemma count_bytes_values (d : Z) :
  count_bytes d = [(d / 256) mod 256; d mod 256].
Proof.
  unfold count_bytes. change 255 with (Z.ones 8).
  rewrite !Z.land_ones by lia.
  rewrite Z.shiftr_div_pow2 by lia.
  reflexivity.
Qed.

(** X5.  The two count bytes carry the count modulo 2^16, high byte first,
    for every 32-bit count: each is a byte value and together they give back
    the low sixteen bits.  Two counts produce the same bytes exactly when
    they agree modulo 65536. *)
Theorem count_bytes_sixteen_bits (d d' : Z) :
  (exists hi lo : Z,
      count_bytes d = [hi; lo]
      /\ 0 <= hi < 256 /\ 0 <= lo < 256
      /\ 256 * hi + lo = d mod 2 ^ 16)
  /\ (count_bytes d = count_bytes d' <-> d mod 2 ^ 16 = d' mod 2 ^ 16).
Proof.
  assert (Hsplit : forall z, z mod 2 ^ 16 = z mod 256 + 256 * ((z / 256) mod 256)).
  { intro z. change (2 ^ 16) with (256 * 256). apply Z.rem_mul_r; lia. }
  split.
  - exists ((d / 256) mod 256), (d mod 256).
    rewrite count_bytes_values, Hsplit.
    pose proof (Z.mod_pos_bound (d / 256) 256 ltac:(lia)).
    pose proof (Z.mod_pos_bound d 256 ltac:(lia)).
    repeat split; lia.
  - rewrite !count_bytes_values, !Hsplit. split.
    + intro H. injection H as Hhi Hlo. lia.
    + intro H.
      pose proof (Z.mod_pos_bound (d / 256) 256 ltac:(lia)).
      pose proof (Z.mod_pos_bound d 256 ltac:(lia)).
      pose proof (Z.mod_pos_bound (d' / 256) 256 ltac:(lia)).
      pose proof (Z.mod_pos_bound d' 256 ltac:(lia)).
      assert ((d / 256) mod 256 = (d' / 256) mod 256) as -> by lia.
      assert (d mod 256 = d' mod 256) as -> by lia.
      reflexivity.
Qed.

(** X6.  A transmit pass sends one payload of byte values whose length is 2,
    plus 1 when the first battery sample is high with a low state on record,
    plus 1 when the second battery sample is low: between 2 and 4 bytes. *)
Theorem payload_length_exact (min_sleep_s : Z) (r : Reads) (s : State) :
  dispense_read r = false ->
  exists payload : list Z,
    sends (trace_of (loop_body min_sleep_s r s)) = [payload]
    /\ length payload
       = (2 + (if lowBat_read_1 r && get_battery_status (config s) then 1 else 0)
          + (if lowBat_read_2 r then 0 else 1))%nat
    /\ Forall (fun b => 0 <= b < 256) payload.
Proof.
  intro Htx. eexists. split; [apply (transmit_path_payload min_sleep_s r s Htx)|].
  rewrite count_bytes_values.
  pose proof (Z.mod_pos_bound (get_dispenses_left (config s) / 256) 256 ltac:(lia)).
  pose proof (Z.mod_pos_bound (get_dispenses_left (config s)) 256 ltac:(lia)).
  destruct (lowBat_read_1 r && get_battery_status (config s)), (lowBat_read_2 r);
    cbn [app length negb Nat.add]; split; try reflexivity;
    repeat (constructor; try lia).
Qed.

Lemma payload_length_exact_witness :
  exists payload : list Z,
    sends (trace_of (loop_body 10 (mkReads false 185 true false false 120)
                               sample_state)) = [payload]
    /\ length payload = 3%nat
    /\ Forall (fun b => 0 <= b < 256) payload.
Proof.
  exact (payload_length_exact 10 (mkReads false 185 true false false 120)
           sample_state eq_refl).
Defined.

(** ** Sleep requests *)

Lemma fast_path_overrun_wraps_witness :
  sleeps (trace_of (loop_body 10 (mkReads true 190 true true true 125) sample_state))
  = [4294967291].
Proof.
  exact (fast_path_overrun_wraps 10 sample_state
           (mkReads true 190 true true true 125)
           eq_refl ltac:(cbn; lia) ltac:(cbn; lia)).
Defined.

Lemma transmit_path_deadline (min_sleep_s : Z) (r : Reads) (s : State) :
  dispense_read r = false ->
  sleeps (trace_of (loop_body min_sleep_s r s))
  = [calculate_actual_sleep_time min_sleep_s (elapsed_since_wake r)
       (get_tx_interval_s (config s))]
  /\ sleep_until (state_of (loop_body min_sleep_s r s))
     = wrap32 (time_null r
               + calculate_actual_sleep_time min_sleep_s (elapsed_since_wake r)
                   (get_tx_interval_s (config s))).
Proof.
  intro H. split_state r s. cbn in H; subst.
  destruct ri, joined, bat1, stored, bat2; split; reflexivity.
Qed.

(** X8.  The deadline written by a transmit pass is what a later dispense
    wake sleeps towards.  If the transmit pass at time t asked for T seconds
    and a dispense wake follows at time t' with t <= t' <= t + T, the wake
    asks for T - (t' - t) seconds, so the time slept before and after the
    wake adds up to T. *)
Theorem remaining_sleep_after_transmit (min_sleep_s : Z) (s : State)
        (r r' : Reads) (es : list Edge) :
  dispense_read r = false ->
  dispense_read r' = true ->
  0 <= time_null r <= time_null r' ->
  let T := calculate_actual_sleep_time min_sleep_s (elapsed_since_wake r)
             (get_tx_interval_s (config s)) in
  time_null r' <= time_null r + T ->
  time_null r + T < 2 ^ 32 ->
  let out := loop_body min_sleep_s r s in
  let out' := cycle min_sleep_s (es, r') (state_of out) in
  sleeps (trace_of out) = [T]
  /\ sleeps (trace_of out') = [T - (time_null r' - time_null r)]
  /\ sleep_until (state_of out') = time_null r + T.
Proof.
  intros Htx Hfast Ht T Hin Hrange out out'. subst out out'.
  destruct (transmit_path_deadline min_sleep_s r s Htx) as [Hsleep Hdeadline].
  fold T in Hsleep, Hdeadline.
  rewrite wrap32_small in Hdeadline by lia.
  split; [exact Hsleep|].
  unfold cycle. cbn [fst snd].
  rewrite (fast_path_result min_sleep_s r' _ Hfast).
  cbn [trace_of state_of fst snd sleeps flat_map app
       set_counter_interrupt with_config sleep_until].
  rewrite handlers_keep_sleep_until, Hdeadline.
  rewrite wrap32_small by lia.
  split; [f_equal; lia | reflexivity].
Qed.

Lemma remaining_sleep_after_transmit_witness :
  let r := mkReads false 200 true true true 5 in
  let r' := mkReads true 230 true true true 0 in
  let out := loop_body 10 r sample_state in
  let out' := cycle 10 ([DispenseRise], r') (state_of out) in
  sleeps (trace_of out) = [115]
  /\ sleeps (trace_of out') = [85]
  /\ sleep_until (state_of out') = 315.
Proof.
  exact (remaining_sleep_after_transmit 10 sample_state
           (mkReads false 200 true true true 5)
           (mkReads true 230 true true true 0)
           [DispenseRise] eq_refl eq_refl
           ltac:(cbn; lia) ltac:(vm_compute; discriminate)
           ltac:(vm_compute; reflexivity)).
Defined.

(** ** Boot followed by the first report *)

Lemma run_app (min_sleep_s : Z) (cs1 cs2 : list (list Edge * Reads)) (s : State) :
  run min_sleep_s (cs1 ++ cs2) s
  = (fst (run min_sleep_s cs2 (fst (run min_sleep_s cs1 s))),
     snd (run min_sleep_s cs1 s)
     ++ snd (run min_sleep_s cs2 (fst (run min_sleep_s cs1 s)))).
Proof.
  revert s. induction cs1 as [|c cs1 IH]; intro s.
  - cbn [app run fst snd]. now destruct (run min_sleep_s cs2 s).
  - rewrite <- app_comm_cons, !run_cons, IH. cbn [fst snd].
    now rewrite app_assoc.
Qed.

Lemma run_one (min_sleep_s : Z) (c : list Edge * Reads) (s : State) :
  run min_sleep_s [c] s
  = (state_of (cycle min_sleep_s c s), trace_of (cycle min_sleep_s c s)).
Proof. rewrite run_cons. cbn [run fst snd]. now rewrite app_nil_r. Qed.

(** Passes that all find the dispense pin high leave the radio object alone
    and neither join nor send. *)
Lemma pin_high_run_quiet (min_sleep_s : Z) (cs : list (list Edge * Reads))
      (s : State) :
  forallb (fun c => dispense_read (snd c)) cs = true ->
  dot (fst (run min_sleep_s cs s)) = dot s
  /\ sends (snd (run min_sleep_s cs s)) = []
  /\ existsb is_join (snd (run min_sleep_s cs s)) = false.
Proof.
  revert s. induction cs as [|c cs IH]; intros s Hall.
  - cbn. repeat split.
  - cbn [forallb] in Hall. apply andb_true_iff in Hall. destruct Hall as [Hc Hcs].
    rewrite run_cons. cbn [fst snd].
    destruct (IH (state_of (cycle min_sleep_s c s)) Hcs) as (H1 & H2 & H3).
    unfold sends in *. rewrite flat_map_app, existsb_app, H1, H2, H3.
    unfold cycle.
    rewrite (fast_path_result min_sleep_s (snd c) (handle_all (fst c) s) Hc).
    cbn [state_of trace_of fst snd flat_map existsb is_join app orb
         set_counter_interrupt with_config dot].
    rewrite handlers_keep_dot. repeat split.
Qed.

(** The whole of a transmit pass, in program order. *)
Lemma transmit_pass_shape (min_sleep_s : Z) (r : Reads) (s : State) :
  dispense_read r = false ->
  let T := calculate_actual_sleep_time min_sleep_s (elapsed_since_wake r)
             (get_tx_interval_s (config s)) in
  exists payload : list Z,
    trace_of (loop_body min_sleep_s r s)
    = (if getNetworkJoinStatus (dot s) then [] else [JoinNetwork (join_result r)])
      ++ [SendData payload; SleepWakeRtcOrInterrupt T false]
    /\ firstn 2 payload = count_bytes (get_dispenses_left (config s))
    /\ sleep_until (state_of (loop_body min_sleep_s r s)) = wrap32 (time_null r + T)
    /\ getDisableDutyCycle (dot (state_of (loop_body min_sleep_s r s)))
       = (getNetworkJoinStatus (dot s) && getDisableDutyCycle (dot s))
    /\ getNetworkJoinStatus (dot (state_of (loop_body min_sleep_s r s)))
       = (getNetworkJoinStatus (dot s) || join_result r).
Proof.
  intros H T. subst T. split_state r s. cbn in H; subst.
  destruct ri, joined, nodc, bat1, stored, bat2; eexists; repeat split; reflexivity.
Qed.

Lemma boot_interval (cfg : ApplicationConfig) (d : mDot) :
  get_tx_interval_s (config (boot (power_on cfg d)))
  = (if getStandbyFlag d then get_tx_interval_s cfg
     else Z.min 60 (get_tx_interval_s cfg)).
Proof.
  unfold boot, power_on. cbn [dot].
  destruct (getStandbyFlag d); cbn [negb]; [reflexivity|].
  unfold provision. cbn [config].
  destruct (60 <? get_tx_interval_s cfg) eqn:E; cbn;
    [apply Z.ltb_lt in E | apply Z.ltb_ge in E]; lia.
Qed.

Lemma boot_dot (cfg : ApplicationConfig) (d : mDot) :
  getNetworkJoinStatus (dot (boot (power_on cfg d)))
  = (getStandbyFlag d && nvm_session d)
  /\ getDisableDutyCycle (dot (boot (power_on cfg d)))
     = (negb (getStandbyFlag d) || getDisableDutyCycle d).
Proof.
  unfold boot, power_on, provision. cbn [dot].
  destruct d as [standby joined nodc nvm]. cbn [getStandbyFlag].
  destruct standby; cbn [negb]; [split; reflexivity|].
  destruct (60 <? _); split; reflexivity.
Qed.

(** X9.  After a cold start, take the first pass that finds the dispense
    pin low, after any number of passes that found it high and any edges
    before each of them.  The passes before it neither join nor send.  That
    pass attempts a join before it sends, whatever session was stored; its
    payload starts with the bytes of the count as it stands at that drain;
    the sleep it asks for is computed from the stored interval cut down to
    60 seconds.  The duty-cycle switch is off afterwards and the join status
    is the outcome of the attempt. *)
Theorem cold_start_first_report (min_sleep_s : Z) (cfg : ApplicationConfig)
        (d : mDot) (pre : list (list Edge * Reads)) (es : list Edge) (r : Reads) :
  getStandbyFlag d = false ->
  forallb (fun c => dispense_read (snd c)) pre = true ->
  dispense_read r = false ->
  let before := main min_sleep_s pre cfg d in
  let out := main min_sleep_s (pre ++ [(es, r)]) cfg d in
  let T := calculate_actual_sleep_time min_sleep_s (elapsed_since_wake r)
             (Z.min 60 (get_tx_interval_s cfg)) in
  exists payload : list Z,
    snd out = snd before ++ [JoinNetwork (join_result r); SendData payload;
                             SleepWakeRtcOrInterrupt T false]
    /\ sends (snd before) = []
    /\ existsb is_join (snd before) = false
    /\ firstn 2 payload
       = count_bytes (get_dispenses_left (config (handle_all es (fst before))))
    /\ sleep_until (fst out) = wrap32 (time_null r + T)
    /\ getDisableDutyCycle (dot (fst out)) = false
    /\ getNetworkJoinStatus (dot (fst out)) = join_result r.
Proof.
  intros Hcold Hpre Htx before out T. subst before out T.
  unfold main. rewrite run_app, run_one. cbn [fst snd].
  set (booted := boot (power_on cfg d)).
  destruct (pin_high_run_quiet min_sleep_s pre booted Hpre) as (Hdot & Hsent & Hjoin).
  pose proof (run_keeps_interval min_sleep_s pre booted) as Hint.
  destruct (boot_dot cfg d) as [Hjoined _]. fold booted in Hjoined.
  pose proof (boot_interval cfg d) as Hboot. fold booted in Hboot.
  rewrite Hcold in Hjoined, Hboot. cbn [andb] in Hjoined.
  set (s1 := fst (run min_sleep_s pre booted)) in *.
  unfold cycle. cbn [fst snd].
  destruct (transmit_pass_shape min_sleep_s r (handle_all es s1) Htx)
    as (payload & Htrace & Hcount & Hdeadline & Hswitch & Hstatus).
  rewrite handlers_keep_dot, Hdot, Hjoined in Htrace, Hswitch, Hstatus.
  rewrite handlers_keep_interval, Hint, Hboot in Htrace, Hdeadline.
  exists payload.
  rewrite Htrace, Hdeadline, Hswitch, Hstatus.
  repeat split; assumption.
Qed.

Lemma cold_start_first_report_witness :
  let pre := [([DispenseRise], mkReads true 3 true true true 0)] in
  let r := mkReads false 7 false true true 2 in
  let before := main 10 pre sample_config cold_dot in
  let out := main 10 (pre ++ [([DispenseRise], r)]) sample_config cold_dot in
  exists payload : list Z,
    snd out = snd before ++ [JoinNetwork false; SendData payload;
                             SleepWakeRtcOrInterrupt 58 false]
    /\ sends (snd before) = []
    /\ existsb is_join (snd before) = false
    /\ firstn 2 payload = [3; 229]
    /\ sleep_until (fst out) = 65
    /\ getDisableDutyCycle (dot (fst out)) = false
    /\ getNetworkJoinStatus (dot (fst out)) = false.
Proof.
  exact (cold_start_first_report 10 sample_config cold_dot
           [([DispenseRise], mkReads true 3 true true true 0)]
           [DispenseRise]
           (mkReads false 7 false true true 2) eq_refl eq_refl eq_refl).
Defined.

(** X10.  After a wake from standby, take the first pass that finds the
    dispense pin low, after any number of passes that found it high and any
    edges before each of them.  The passes before it neither join nor send.
    That pass joins only if the restored session was not a joined one; its
    payload starts with the bytes of the count as it stands at that drain;
    the sleep it asks for is computed from the stored interval as it is, with
    no ceiling; and with a joined session restored the duty-cycle switch is
    left as the radio object had it. *)
Theorem standby_wake_first_report (min_sleep_s : Z) (cfg : ApplicationConfig)
        (d : mDot) (pre : list (list Edge * Reads)) (es : list Edge) (r : Reads) :
  getStandbyFlag d = true ->
  forallb (fun c => dispense_read (snd c)) pre = true ->
  dispense_read r = false ->
  let before := main min_sleep_s pre cfg d in
  let out := main min_sleep_s (pre ++ [(es, r)]) cfg d in
  let T := calculate_actual_sleep_time min_sleep_s (elapsed_since_wake r)
             (get_tx_interval_s cfg) in
  exists payload : list Z,
    snd out = snd before
              ++ (if nvm_session d then [] else [JoinNetwork (join_result r)])
              ++ [SendData payload; SleepWakeRtcOrInterrupt T false]
    /\ sends (snd before) = []
    /\ existsb is_join (snd before) = false
    /\ firstn 2 payload
       = count_bytes (get_dispenses_left (config (handle_all es (fst before))))
    /\ sleep_until (fst out) = wrap32 (time_null r + T)
    /\ getDisableDutyCycle (dot (fst out))
       = (nvm_session d && getDisableDutyCycle d).
Proof.
  intros Hwarm Hpre Htx before out T. subst before out T.
  unfold main. rewrite run_app, run_one. cbn [fst snd].
  set (booted := boot (power_on cfg d)).
  destruct (pin_high_run_quiet min_sleep_s pre booted Hpre) as (Hdot & Hsent & Hjoin).
  pose proof (run_keeps_interval min_sleep_s pre booted) as Hint.
  destruct (boot_dot cfg d) as [Hjoined Hnodc]. fold booted in Hjoined, Hnodc.
  pose proof (boot_interval cfg d) as Hboot. fold booted in Hboot.
  rewrite Hwarm in Hjoined, Hnodc, Hboot. cbn [andb negb orb] in Hjoined, Hnodc.
  set (s1 := fst (run min_sleep_s pre booted)) in *.
  unfold cycle. cbn [fst snd].
  destruct (transmit_pass_shape min_sleep_s r (handle_all es s1) Htx)
    as (payload & Htrace & Hcount & Hdeadline & Hswitch & Hstatus).
  rewrite handlers_keep_dot, Hdot in Htrace, Hswitch.
  rewrite Hjoined in Htrace, Hswitch. rewrite Hnodc in Hswitch.
  rewrite handlers_keep_interval, Hint, Hboot in Htrace, Hdeadline.
  exists payload.
  rewrite Htrace, Hdeadline, Hswitch.
  repeat split; assumption.
Qed.

Lemma standby_wake_first_report_witness :
  let pre := [([DispenseRise], mkReads true 3 true true true 0)] in
  let r := mkReads false 7 true true true 2 in
  let d := mkDot true false true true in
  let before := main 10 pre sample_config d in
  let out := main 10 (pre ++ [([DispenseRise], r)]) sample_config d in
  exists payload : list Z,
    snd out = snd before
              ++ [] ++ [SendData payload; SleepWakeRtcOrInterrupt 118 false]
    /\ sends (snd before) = []
    /\ existsb is_join (snd before) = false
    /\ firstn 2 payload = [3; 229]
    /\ sleep_until (fst out) = 125
    /\ getDisableDutyCycle (dot (fst out)) = true.
Proof.
  exact (standby_wake_first_report 10 sample_config (mkDot true false true true)
           [([DispenseRise], mkReads true 3 true true true 0)]
           [DispenseRise]
           (mkReads false 7 true true true 2) eq_refl eq_refl eq_refl).
Defined.

(** ** Joined devices *)




(** ** Battery dips *)

Lemma handlers_battery_status (es : list Edge) (s : State) :
  get_battery_status (config (handle_all es s))
  = (get_battery_status (config s) || existsb is_low_battery_edge es).
Proof.
  revert s. induction es as [|e es IH]; intro s.
  - cbn. now rewrite orb_false_r.
  - cbn [handle_all fold_left]. fold (handle_all es (handle e s)).
    rewrite IH. destruct e; cbn; try reflexivity.
    now rewrite orb_true_r.
Qed.

(** X12.  A battery dip that is over by the time of the report is reported
    as a recovery, never as an alert: when a low-battery edge arrived before
    the drain and both battery samples of the transmit pass read high, the
    payload carries the single status byte 0, the stored low state is cleared
    again, and the low-battery latch is still up. *)
Theorem battery_dip_reported_as_stable (min_sleep_s : Z) (s : State)
        (es : list Edge) (r : Reads) :
  existsb is_low_battery_edge es = true ->
  dispense_read r = false ->
  lowBat_read_1 r = true ->
  lowBat_read_2 r = true ->
  let out := cycle min_sleep_s (es, r) s in
  map (skipn 2) (sends (trace_of out)) = [[0]]
  /\ get_battery_status (config (state_of out)) = false
  /\ low_battery_interrupt (state_of out) = true.
Proof.
  intros Hdip Htx H1 H2 out. subst out.
  rewrite cycle_low_battery_latch. cbn [fst]. rewrite Hdip, orb_true_r.
  unfold cycle. cbn [fst snd].
  destruct (transmit_path_config min_sleep_s r (handle_all es s) Htx)
    as (_ & _ & _ & Hstored).
  rewrite Hstored, (transmit_path_payload min_sleep_s r (handle_all es s) Htx).
  rewrite handlers_battery_status, Hdip, orb_true_r, H1, H2.
  cbn [map andb negb]. rewrite status_suffix.
  repeat split.
Qed.

Lemma battery_dip_reported_as_stable_witness :
  let out := cycle 10 ([DispenseRise; LowBatFall],
                       mkReads false 185 true true true 120) sample_state in
  map (skipn 2) (sends (trace_of out)) = [[0]]
  /\ get_battery_status (config (state_of out)) = false
  /\ low_battery_interrupt (state_of out) = true.
Proof.
  exact (battery_dip_reported_as_stable 10 sample_state
           [DispenseRise; LowBatFall]
           (mkReads false 185 true true true 120)
           eq_refl eq_refl eq_refl eq_refl).
Defined.

(** ** Range of the counter *)

Lemma handlers_keep_range (es : list Edge) (s : State) :
  0 <= get_dispenses_left (config s) <= DISPENSES_FULL ->
  0 <= get_dispenses_left (config (handle_all es s)) <= DISPENSES_FULL.
Proof.
  revert s. induction es as [|e es IH]; intros s H; [exact H|].
  cbn [handle_all fold_left]. fold (handle_all es (handle e s)).
  apply IH. destruct e; cbn [handle]; try exact H.
  - cbn [counter_dec with_config config set_counter_interrupt].
    rewrite decrease_value by lia. lia.
  - cbn. unfold DISPENSES_FULL. lia.
Qed.

Lemma pass_keeps_range (min_sleep_s : Z) (r : Reads) (s : State) :
  0 <= get_dispenses_left (config s) <= DISPENSES_FULL ->
  0 <= get_dispenses_left (config (state_of (loop_body min_sleep_s r s)))
  <= DISPENSES_FULL
  /\ Forall (fun p => exists d, 0 <= d <= DISPENSES_FULL
                                /\ firstn 2 p = [d / 256; d mod 256])
            (sends (trace_of (loop_body min_sleep_s r s))).
Proof.
  intro H. destruct (dispense_read r) eqn:Hpin.
  - rewrite (fast_path_result min_sleep_s r s Hpin).
    cbn [state_of trace_of fst snd sends flat_map
         set_counter_interrupt with_config config].
    rewrite decrease_value by lia. split; [lia | constructor].
  - destruct (transmit_path_config min_sleep_s r s Hpin) as (_ & Hleft & _).
    rewrite Hleft, (transmit_path_payload min_sleep_s r s Hpin).
    split; [exact H|].
    constructor; [|constructor].
    exists (get_dispenses_left (config s)). split; [exact H|].
    rewrite count_bytes_prefix, count_bytes_values.
    unfold DISPENSES_FULL in H.
    rewrite (Z.mod_small (get_dispenses_left (config s) / 256)); [reflexivity|].
    split; [apply Z.div_pos; lia | apply Z.div_lt_upper_bound; lia].
Qed.

(** X13.  The counter stays in range and is reported exactly.  From a count
    between 0 and the full value, whatever edges and passes follow, the count
    stays between 0 and the full value, and every payload sent starts with
    the two big-endian bytes of such a count, with nothing cut off by the
    16-bit encoding. *)
Theorem counter_range_invariant (min_sleep_s : Z) (cs : list (list Edge * Reads))
        (s : State) :
  0 <= get_dispenses_left (config s) <= DISPENSES_FULL ->
  0 <= get_dispenses_left (config (fst (run min_sleep_s cs s))) <= DISPENSES_FULL
  /\ Forall (fun p => exists d, 0 <= d <= DISPENSES_FULL
                                /\ firstn 2 p = [d / 256; d mod 256])
            (sends (snd (run min_sleep_s cs s))).
Proof.
  revert s. induction cs as [|c cs IH]; intros s H.
  - cbn. split; [exact H | constructor].
  - rewrite run_cons. cbn [fst snd].
    destruct (pass_keeps_range min_sleep_s (snd c) (handle_all (fst c) s)
                (handlers_keep_range (fst c) s H)) as [Hrange Hsent].
    destruct (IH (state_of (cycle min_sleep_s c s)) Hrange) as [IH1 IH2].
    split; [exact IH1|].
    unfold sends in *. rewrite flat_map_app. apply Forall_app.
    split; [exact Hsent | exact IH2].
Qed.

Lemma counter_range_invariant_witness :
  0 <= get_dispenses_left
         (config (fst (run 10 [(repeat DispenseRise 3,
                                mkReads true 100 true true true 35);
                               ([ResetFall], mkReads false 185 true true true 120)]
                           sample_state))) <= DISPENSES_FULL
  /\ Forall (fun p => exists d, 0 <= d <= DISPENSES_FULL
                                /\ firstn 2 p = [d / 256; d mod 256])
            (sends (snd (run 10 [(repeat DispenseRise 3,
                                  mkReads true 100 true true true 35);
                                 ([ResetFall], mkReads false 185 true true true 120)]
                             sample_state))).
Proof.
  exact (counter_range_invariant 10
           [(repeat DispenseRise 3, mkReads true 100 true true true 35);
            ([ResetFall], mkReads false 185 true true true 120)]
           sample_state ltac:(vm_compute; split; discriminate)).
Defined.

(** X14.  Without a reset edge the counter never goes up: over any run in
    which no reset edge arrives the count ends between 0 and its starting
    value. *)
Theorem counter_never_rises_without_reset (min_sleep_s : Z)
        (cs : list (list Edge * Reads)) (s : State) :
  forallb (fun c => negb (existsb is_reset_edge (fst c))) cs = true ->
  0 <= get_dispenses_left (config s) ->
  0 <= get_dispenses_left (config (fst (run min_sleep_s cs s)))
  <= get_dispenses_left (config s).
Proof.
  revert s. induction cs as [|c cs IH]; intros s Hall Hpos.
  - cbn. lia.
  - cbn [forallb] in Hall. apply andb_true_iff in Hall. destruct Hall as [Hc Hcs].
    apply negb_true_iff in Hc.
    rewrite run_cons. cbn [fst].
    pose proof (handlers_count_dispenses (fst c) s Hc Hpos) as Hhandled.
    pose proof (count_dispense_nonneg (fst c)) as Hn.
    assert (Hpass : 0 <= get_dispenses_left (config (state_of (cycle min_sleep_s c s)))
                    <= get_dispenses_left (config s)).
    { unfold cycle. destruct (dispense_read (snd c)) eqn:Hpin.
      - rewrite (fast_path_result min_sleep_s (snd c) _ Hpin).
        cbn [state_of fst snd set_counter_interrupt with_config config].
        rewrite decrease_value by lia. lia.
      - destruct (transmit_path_config min_sleep_s (snd c) (handle_all (fst c) s) Hpin)
          as (_ & Hleft & _).
        rewrite Hleft. lia. }
    specialize (IH (state_of (cycle min_sleep_s c s)) Hcs ltac:(lia)). lia.
Qed.

Lemma counter_never_rises_without_reset_witness :
  0 <= get_dispenses_left
         (config (fst (run 10 [(repeat DispenseRise 3,
                                mkReads true 100 true true true 35);
                               ([LowBatFall], mkReads false 185 true true true 120)]
                           sample_state)))
  <= get_dispenses_left (config sample_state).
Proof.
  exact (counter_never_rises_without_reset 10
           [(repeat DispenseRise 3, mkReads true 100 true true true 35);
            ([LowBatFall], mkReads false 185 true true true 120)]
           sample_state eq_refl ltac:(vm_compute; discriminate)).
Defined.
